(** * rust-types: the [Result] and [Option] containers

    A shallow embedding of the TypeScript sources

    - [src/result.ts] (and its documented twin [src/unnamed/part_003], which
      adds [unwrapOr]): the [Result] class with the [EMPTY] symbol sentinel,
    - [src/unnamed/part_000]: the earlier [Result] class that uses
      [undefined] as its sentinel,
    - [src/option.ts]: the [Option] class,
    - [src/unnamed/part_004]: the earlier [Option] class whose [some]
      accessor has no guard,

    followed by the properties of these classes. *)

From Stdlib Require Import ZArith String Bool DecimalString.

Local Open Scope string_scope.

(** * Completions

    Every JavaScript evaluation either completes normally with a value,
    completes abruptly with a thrown value, or never completes. *)

Inductive Outcome (A F : Type) : Type :=
| Return (a : A)
| Throw (f : F)
| Diverge.

Arguments Return {A F} a.
Arguments Throw {A F} f.
Arguments Diverge {A F}.

(** * Values

    The values a caller can hand to the containers.  Symbols are compared by
    identity: [SymEMPTY] is the symbol created by [const EMPTY =
    Symbol("EMPTY")] when the module is loaded, [SymUser id] is any other
    symbol.  The library never compares two objects and never reads a
    property of one; the only thing it does to an object is to convert it to
    a string inside a template literal, so an object is described by how that
    conversion ends.  [VError] is an [Error] instance (or an instance of a
    subclass) with the inherited [toString]; [VObject conv] is any other
    object, [conv] being the completion of its conversion to a string
    (through [Symbol.toPrimitive], [toString] or [valueOf], which are caller
    code).  [VNum n] is the Number with the integer value [n]; fractions,
    infinities and [NaN] are left out. *)

Inductive JsSymbol : Type :=
| SymEMPTY
| SymUser (id : nat).

#[warnings="-register-all"] Inductive JsVal : Type :=
| VUndefined
| VNull
| VBool (b : bool)
| VNum (n : Z)
| VStr (s : string)
| VSymbol (k : JsSymbol)
| VError (name message : string)
| VObject (conv : Outcome string JsVal).

Definition Completion (A : Type) : Type := Outcome A JsVal.

(** The error monad of completions. *)

Definition bind {A B : Type} (c : Completion A) (k : A -> Completion B)
  : Completion B :=
  match c with
  | Return a => k a
  | Throw f => Throw f
  | Diverge => Diverge
  end.

Declare Scope js_scope.
Delimit Scope js_scope with js.
Notation "x <- c ;; k" := (bind c (fun x => k))
  (at level 61, c at next level, right associativity) : js_scope.
Local Open Scope js_scope.

Definition raises {A : Type} (c : Completion A) : Prop :=
  exists f, c = Throw f.

(** ** Strict equality against the three sentinels

    The sources only ever compare a stored value with [EMPTY], [undefined]
    or [null], all of them primitives: [x === EMPTY] holds exactly when [x]
    is that very symbol, and likewise for the other two. *)

Definition EMPTY : JsVal := VSymbol SymEMPTY.

Definition is_EMPTY (x : JsVal) : bool :=
  match x with
  | VSymbol SymEMPTY => true
  | _ => false
  end.

Definition is_undefined (x : JsVal) : bool :=
  match x with
  | VUndefined => true
  | _ => false
  end.

Definition is_null (x : JsVal) : bool :=
  match x with
  | VNull => true
  | _ => false
  end.

(** ** Conversion to a string, as a template literal performs it

    The conversion is given by its completion only: what the [toString] of
    an object does to the world while it runs is not modelled, so nothing
    below states the world after an [expect] that converts an error. *)

Definition new_Error (message : string) : JsVal := VError "Error" message.

Definition new_TypeError (message : string) : JsVal :=
  VError "TypeError" message.

(** [Number.prototype.toString] at an integer-valued Number: its decimal
    digits (the exponent form of Numbers from 1e21 on is not modelled; no
    property below depends on the digits of a Number). *)
Definition Number_toString (n : Z) : string :=
  NilZero.string_of_int (Z.to_int n).

(** [Error.prototype.toString]. *)
Definition Error_toString (name message : string) : string :=
  if String.eqb name "" then message
  else if String.eqb message "" then name
  else name ++ ": " ++ message.

Definition ToString (x : JsVal) : Completion string :=
  match x with
  | VUndefined => Return "undefined"
  | VNull => Return "null"
  | VBool true => Return "true"
  | VBool false => Return "false"
  | VNum n => Return (Number_toString n)
  | VStr s => Return s
  | VSymbol _ =>
      Throw (new_TypeError "Cannot convert a Symbol value to a string")
  | VError name message => Return (Error_toString name message)
  | VObject conv => conv
  end.

(** * Callbacks

    A callback is caller code: it may read and change the world it runs in,
    and it completes like any evaluation.  [run_try] is [try { body } catch
    (e) { handler }] in that world.  A promise is described by what
    awaiting it yields: [Return v] when it is fulfilled with [v], [Throw f]
    when it is rejected with [f], [Diverge] when it never settles. *)

Section Effects.

Variable World : Type.

Definition Run (A : Type) : Type := World -> Completion A * World.

Definition lift {A : Type} (c : Completion A) : Run A :=
  fun w => (c, w).

Definition run_bind {A B : Type} (m : Run A) (k : A -> Run B) : Run B :=
  fun w =>
    match m w with
    | (Return a, w') => k a w'
    | (Throw f, w') => (Throw f, w')
    | (Diverge, w') => (Diverge, w')
    end.

Definition run_try {A : Type} (body : Run A) (handler : JsVal -> Run A)
  : Run A :=
  fun w =>
    match body w with
    | (Return a, w') => (Return a, w')
    | (Throw e, w') => handler e w'
    | (Diverge, w') => (Diverge, w')
    end.

Definition Promise (A : Type) : Type := Run A.

Definition await {A : Type} (p : Promise A) : Run A := p.

End Effects.

Arguments lift {World A} c w.
Arguments run_bind {World A B} m k w.
Arguments run_try {World A} body handler w.
Arguments await {World A} p w.

(** * Construction paths and observations

    A [Result] is made by [Ok], by [Err], or by wrapping a synchronous or an
    asynchronous callback.  What a caller can see of it afterwards is the
    completion of one of its accessors and methods. *)

Inductive Path (World : Type) : Type :=
| ByOk (value : JsVal)
| ByErr (error : JsVal)
| ByWrap (callback : Run World JsVal)
| ByWrapAsync (callback : Run World (Promise World JsVal)).

Arguments ByOk {World} value.
Arguments ByErr {World} error.
Arguments ByWrap {World} callback.
Arguments ByWrapAsync {World} callback.

(** The asynchronous callback followed to the settlement of its promise. *)
Definition settled {World : Type} (callback : Run World (Promise World JsVal))
  : Run World JsVal :=
  run_bind callback (fun promise => await promise).

(** The payload a path puts in the container: the argument of [Ok] (a normal
    completion), the argument of [Err] (an abrupt one), or the completion of
    the wrapped callback. *)
Definition payload {World : Type} (p : Path World) : Run World JsVal :=
  match p with
  | ByOk value => lift (Return value)
  | ByErr error => lift (Throw error)
  | ByWrap callback => callback
  | ByWrapAsync callback => settled callback
  end.

Inductive Op : Type :=
| OpIsOk
| OpIsErr
| OpOk
| OpErr
| OpExpect (msg : string).

Inductive Obs : Type :=
| ObsBool (b : bool)
| ObsVal (v : JsVal).

(** * [src/result.ts]: the symbol-sentinel [Result] *)

Module Result.

(** The two private fields [#value] and [#error]; [New] is the
    constructor [new Result({ value, error })]. *)
Record Result : Type := mk { hash_value : JsVal; hash_error : JsVal }.

Definition New (value error : JsVal) : Completion Result :=
  Return (mk value error).

Definition ok (this : Result) : Completion JsVal :=
  Return (hash_value this).

Definition err (this : Result) : Completion JsVal :=
  Return (hash_error this).

Definition isOk (this : Result) : Completion bool :=
  Return (negb (is_EMPTY (hash_value this))).

Definition isErr (this : Result) : Completion bool :=
  Return (negb (is_EMPTY (hash_error this))).

(** [unwrapOr] is the method of [src/unnamed/part_003]. *)
Definition unwrapOr (this : Result) (other : JsVal) : Completion JsVal :=
  if negb (is_EMPTY (hash_error this)) then Return other
  else Return (hash_value this).

Definition expect (this : Result) (msg : string) : Completion JsVal :=
  if negb (is_EMPTY (hash_error this)) then
    s <- ToString (hash_error this) ;;
    Throw (new_Error (msg ++ " - " ++ s))
  else Return (hash_value this).

Definition Ok (value : JsVal) : Completion Result := New value EMPTY.

Definition Err (error : JsVal) : Completion Result := New EMPTY error.

Section Wrap.

Variable World : Type.

Definition wrap (callback : Run World JsVal) : Run World Result :=
  run_try
    (run_bind callback (fun value => lift (New value EMPTY)))
    (fun e => lift (New EMPTY e)).

Definition wrapAsync (callback : Run World (Promise World JsVal))
  : Promise World Result :=
  run_try
    (run_bind callback (fun promise =>
       run_bind (await promise) (fun value => lift (New value EMPTY))))
    (fun e => lift (New EMPTY e)).

End Wrap.

Arguments wrap {World} callback w.
Arguments wrapAsync {World} callback w.

Definition construct {World : Type} (p : Path World) : Run World Result :=
  match p with
  | ByOk value => lift (Ok value)
  | ByErr error => lift (Err error)
  | ByWrap callback => wrap callback
  | ByWrapAsync callback => wrapAsync callback
  end.

Definition observe (op : Op) (this : Result) : Completion Obs :=
  match op with
  | OpIsOk => b <- isOk this ;; Return (ObsBool b)
  | OpIsErr => b <- isErr this ;; Return (ObsBool b)
  | OpOk => v <- ok this ;; Return (ObsVal v)
  | OpErr => v <- err this ;; Return (ObsVal v)
  | OpExpect msg => v <- expect this msg ;; Return (ObsVal v)
  end.

(** Build a [Result] along [p], then apply [op] to it. *)
Definition observation {World : Type} (p : Path World) (op : Op)
  : Run World Obs :=
  run_bind (construct p) (fun this => lift (observe op this)).

End Result.

(** * [src/unnamed/part_000]: the [undefined]-sentinel [Result] *)

Module ResultUndef.

Record Result : Type := mk { hash_value : JsVal; hash_error : JsVal }.

Definition New (value error : JsVal) : Completion Result :=
  Return (mk value error).

Definition ok (this : Result) : Completion JsVal :=
  Return (hash_value this).

Definition err (this : Result) : Completion JsVal :=
  Return (hash_error this).

Definition isOk (this : Result) : Completion bool :=
  Return (is_undefined (hash_error this)).

Definition isErr (this : Result) : Completion bool :=
  Return (negb (is_undefined (hash_error this))).

Definition expect (this : Result) (msg : string) : Completion JsVal :=
  if negb (is_undefined (hash_error this)) then
    s <- ToString (hash_error this) ;;
    Throw (new_Error (msg ++ " - " ++ s))
  else Return (hash_value this).

Definition Ok (value : JsVal) : Completion Result := New value VUndefined.

Definition Err (error : JsVal) : Completion Result := New VUndefined error.

Section Wrap.

Variable World : Type.

Definition wrap (callback : Run World JsVal) : Run World Result :=
  run_try
    (run_bind callback (fun value => lift (New value VUndefined)))
    (fun e => lift (New VUndefined e)).

Definition wrapAsync (callback : Run World (Promise World JsVal))
  : Promise World Result :=
  run_try
    (run_bind callback (fun promise =>
       run_bind (await promise) (fun value =>
         lift (New value VUndefined))))
    (fun e => lift (New VUndefined e)).

End Wrap.

Arguments wrap {World} callback w.
Arguments wrapAsync {World} callback w.

Definition construct {World : Type} (p : Path World) : Run World Result :=
  match p with
  | ByOk value => lift (Ok value)
  | ByErr error => lift (Err error)
  | ByWrap callback => wrap callback
  | ByWrapAsync callback => wrapAsync callback
  end.

Definition observe (op : Op) (this : Result) : Completion Obs :=
  match op with
  | OpIsOk => b <- isOk this ;; Return (ObsBool b)
  | OpIsErr => b <- isErr this ;; Return (ObsBool b)
  | OpOk => v <- ok this ;; Return (ObsVal v)
  | OpErr => v <- err this ;; Return (ObsVal v)
  | OpExpect msg => v <- expect this msg ;; Return (ObsVal v)
  end.

(** Build a [Result] along [p], then apply [op] to it. *)
Definition observation {World : Type} (p : Path World) (op : Op)
  : Run World Obs :=
  run_bind (construct p) (fun this => lift (observe op this)).

End ResultUndef.

(** * [src/option.ts]: the [Option] class *)

Module Option.

Record Option : Type := mk { hash_value : JsVal }.

Definition New (value : JsVal) : Completion Option := Return (mk value).

Definition some (this : Option) : Completion JsVal :=
  if is_undefined (hash_value this) || is_null (hash_value this) then
    Throw (new_Error "Option is None")
  else Return (hash_value this).

Definition isSome (this : Option) : Completion bool :=
  Return (negb (is_undefined (hash_value this))).

Definition isNone (this : Option) : Completion bool :=
  Return (is_undefined (hash_value this)).

Definition expect (this : Option) (msg : string) : Completion JsVal :=
  if is_undefined (hash_value this) || is_null (hash_value this) then
    Throw (new_Error (msg ++ " - Option is None"))
  else Return (hash_value this).

Definition wrap (value : JsVal) : Completion Option := New value.

End Option.

(** * [src/unnamed/part_004]: the [Option] class with the unguarded [some] *)

Module OptionUnchecked.

Record Option : Type := mk { hash_value : JsVal }.

Definition New (value : JsVal) : Completion Option := Return (mk value).

Definition some (this : Option) : Completion JsVal :=
  Return (hash_value this).

Definition isSome (this : Option) : Completion bool :=
  Return (negb (is_undefined (hash_value this))).

Definition isNone (this : Option) : Completion bool :=
  Return (is_undefined (hash_value this)).

Definition expect (this : Option) (msg : string) : Completion JsVal :=
  if is_undefined (hash_value this) || is_null (hash_value this) then
    Throw (new_Error (msg ++ " - Option is None"))
  else Return (hash_value this).

Definition wrap (value : JsVal) : Completion Option := New value.

End OptionUnchecked.

(** * Observational equivalence of the two [Result] classes

    [observationally_equivalent] says that no path and no operation tells the
    two [Result] classes apart.  [sentinel_free] and [on_own_branch] single
    out the paths and operations on which they do agree: the payload is
    neither class's sentinel where that class would test for it, and the
    accessor asked for is the one of the branch the container is on. *)

Definition observationally_equivalent : Prop :=
  forall (World : Type) (p : Path World) (op : Op) (w : World),
    Result.observation p op w = ResultUndef.observation p op w.

Definition sentinel_free (c : Completion JsVal) : Prop :=
  match c with
  | Return v => v <> EMPTY
  | Throw e => e <> EMPTY /\ e <> VUndefined
  | Diverge => True
  end.

Definition on_own_branch (c : Completion JsVal) (op : Op) : Prop :=
  match c, op with
  | Return _, OpErr => False
  | Throw _, OpOk => False
  | _, _ => True
  end.

(** * Properties *)

(** A completion that is visibly not a [Throw] does not raise. *)
Ltac no_throw :=
  let f := fresh "f" in
  let Hf := fresh "Hf" in
  intros [f Hf]; discriminate Hf.

(** ** The sentinel tests decide equality with the sentinel *)

Lemma is_EMPTY_spec (x : JsVal) : is_EMPTY x = true <-> x = EMPTY.
Proof.
  split.
  - destruct x as [ | | b | n | s | [ | id] | name message | conv];
      simpl; intros H; try discriminate H; reflexivity.
  - intros ->. reflexivity.
Qed.

Lemma is_EMPTY_false (x : JsVal) : x <> EMPTY -> is_EMPTY x = false.
Proof.
  intros H. destruct (is_EMPTY x) eqn:E; [ | reflexivity].
  apply is_EMPTY_spec in E. contradiction.
Qed.

Lemma is_undefined_spec (x : JsVal) : is_undefined x = true <-> x = VUndefined.
Proof.
  split.
  - destruct x; simpl; intros H; try discriminate H; reflexivity.
  - intros ->. reflexivity.
Qed.

Lemma is_undefined_false (x : JsVal) :
  x <> VUndefined -> is_undefined x = false.
Proof.
  intros H. destruct (is_undefined x) eqn:E; [ | reflexivity].
  apply is_undefined_spec in E. contradiction.
Qed.

Lemma is_null_false (x : JsVal) : x <> VNull -> is_null x = false.
Proof.
  intros H. destruct x; try reflexivity. contradiction H. reflexivity.
Qed.

(** ** Every path stores its payload in one slot and the sentinel in the
       other *)

Lemma wrapAsync_settled {World : Type}
  (callback : Run World (Promise World JsVal)) (w : World) :
  Result.wrapAsync callback w = Result.wrap (settled callback) w.
Proof.
  unfold Result.wrapAsync, Result.wrap, settled, run_try, run_bind, await.
  destruct (callback w) as [[promise | f | ] w1]; reflexivity.
Qed.

Lemma construct_payload {World : Type} (p : Path World) (w : World) :
  Result.construct p w =
  match payload p w with
  | (Return v, w') => (Return (Result.mk v EMPTY), w')
  | (Throw e, w') => (Return (Result.mk EMPTY e), w')
  | (Diverge, w') => (Diverge, w')
  end.
Proof.
  destruct p as [value | error | callback | callback]; simpl;
    try reflexivity.
  - unfold Result.wrap, run_try, run_bind, lift.
    destruct (callback w) as [[v | f | ] w1]; reflexivity.
  - rewrite wrapAsync_settled.
    unfold Result.wrap, run_try, run_bind, lift.
    destruct (settled callback w) as [[v | f | ] w1]; reflexivity.
Qed.

Lemma constructed_shape {World : Type} (p : Path World) (w w' : World)
  (r : Result.Result) :
  Result.construct p w = (Return r, w') ->
  (exists v, payload p w = (Return v, w') /\ r = Result.mk v EMPTY) \/
  (exists e, payload p w = (Throw e, w') /\ r = Result.mk EMPTY e).
Proof.
  rewrite construct_payload.
  destruct (payload p w) as [[v | e | ] w1]; intros H; inversion H; subst.
  - left. exists v. split; reflexivity.
  - right. exists e. split; reflexivity.
Qed.

(** ** The scenarios of the specification, run on the embedding *)

Example scenario_Ok_42 :
  (r <- Result.Ok (VNum 42) ;; Result.isOk r) = Return true /\
  (r <- Result.Ok (VNum 42) ;; Result.ok r) = Return (VNum 42).
Proof. split; reflexivity. Qed.

Example scenario_Err_bad :
  (r <- Result.Err (VStr "bad") ;; Result.isErr r) = Return true /\
  (r <- Result.Err (VStr "bad") ;; Result.err r) = Return (VStr "bad").
Proof. split; reflexivity. Qed.

Example scenario_wrap_div_by_zero :
  Result.observation (ByWrap (fun u : unit => (Throw (VStr "div by zero"), u)))
    OpIsErr tt = (Return (ObsBool true), tt) /\
  Result.observation (ByWrap (fun u : unit => (Throw (VStr "div by zero"), u)))
    OpErr tt = (Return (ObsVal (VStr "div by zero")), tt).
Proof. split; reflexivity. Qed.

Example scenario_Option_wrap_5 :
  (o <- Option.wrap (VNum 5) ;; Option.some o) = Return (VNum 5).
Proof. reflexivity. Qed.

Example scenario_expect_Error_object :
  (r <- Result.Err (new_Error "boom") ;; Result.expect r "failed") =
  Throw (new_Error "failed - Error: boom").
Proof. reflexivity. Qed.

Example scenario_expect_number :
  (r <- Result.Err (VNum (-7)) ;; Result.expect r "failed") =
  Throw (new_Error "failed - -7").
Proof. reflexivity. Qed.

(** ** [Result.wrap] *)

(** C1. [Result.wrap] of a callback that completes normally with [v] returns
    what [Ok v] returns; of a callback that throws [f], whatever [f] is, it
    returns what [Err f] returns; and no callback makes [wrap] itself
    throw. *)
Theorem wrap_contains_failures {World : Type} (callback : Run World JsVal)
  (w : World) :
  (forall v w', callback w = (Return v, w') ->
     Result.wrap callback w = (Result.Ok v, w')) /\
  (forall f w', callback w = (Throw f, w') ->
     Result.wrap callback w = (Result.Err f, w')) /\
  ~ raises (fst (Result.wrap callback w)).
Proof.
  unfold Result.wrap, run_try, run_bind, lift.
  repeat split.
  - intros v w' H. rewrite H. reflexivity.
  - intros f w' H. rewrite H. reflexivity.
  - destruct (callback w) as [[v | f | ] w1]; simpl;
      no_throw.
Qed.

(** A callback that counts its calls in the world and throws "div by zero". *)
Lemma wrap_contains_failures_witness :
  Result.wrap (fun n : nat => (Throw (VStr "div by zero"), S n)) 0 =
  (Result.Err (VStr "div by zero"), 1) /\
  Result.wrap (fun n : nat => (Return (VNum 42), S n)) 0 =
  (Result.Ok (VNum 42), 1).
Proof.
  split.
  - apply (wrap_contains_failures
             (fun n : nat => (Throw (VStr "div by zero"), S n)) 0).
    reflexivity.
  - apply (wrap_contains_failures
             (fun n : nat => (Return (VNum 42), S n)) 0).
    reflexivity.
Defined.

(** ** [Result.wrapAsync] *)

(** C4. [Result.wrapAsync] has the contract of [Result.wrap]: the promise it
    returns is fulfilled with what [Ok v] returns when the callback's promise
    is fulfilled with [v], and with what [Err f] returns when that promise is
    rejected with [f] or the callback throws [f] before returning a promise;
    it is never rejected.  It is [wrap] applied to the callback followed to
    its settlement. *)
Theorem wrapAsync_same_contract {World : Type}
  (callback : Run World (Promise World JsVal)) (w : World) :
  Result.wrapAsync callback w = Result.wrap (settled callback) w /\
  (forall promise w1 v w2,
     callback w = (Return promise, w1) -> promise w1 = (Return v, w2) ->
     Result.wrapAsync callback w = (Result.Ok v, w2)) /\
  (forall promise w1 f w2,
     callback w = (Return promise, w1) -> promise w1 = (Throw f, w2) ->
     Result.wrapAsync callback w = (Result.Err f, w2)) /\
  (forall f w1,
     callback w = (Throw f, w1) ->
     Result.wrapAsync callback w = (Result.Err f, w1)) /\
  ~ raises (fst (Result.wrapAsync callback w)).
Proof.
  split; [apply wrapAsync_settled | ].
  unfold Result.wrapAsync, run_try, run_bind, await, lift.
  split; [ | split; [ | split]].
  - intros promise w1 v w2 Hc Hp. rewrite Hc, Hp. reflexivity.
  - intros promise w1 f w2 Hc Hp. rewrite Hc, Hp. reflexivity.
  - intros f w1 Hc. rewrite Hc. reflexivity.
  - destruct (callback w) as [[promise | f | ] w1]; simpl.
    + destruct (promise w1) as [[v | f | ] w2]; simpl;
        no_throw.
    + no_throw.
    + no_throw.
Qed.

(** A callback whose promise is rejected with an [Error] after one more step
    of the world, and one that throws before it returns a promise. *)
Lemma wrapAsync_same_contract_witness :
  Result.wrapAsync
    (fun n : nat =>
       (Return (fun m : nat => (Throw (new_Error "ENOENT"), S m)), S n)) 0 =
  (Result.Err (new_Error "ENOENT"), 2) /\
  Result.wrapAsync
    (fun n : nat => (@Throw (Promise nat JsVal) _ (VStr "early"), S n)) 0 =
  (Result.Err (VStr "early"), 1).
Proof.
  split.
  - refine (proj1 (proj2 (proj2 (wrapAsync_same_contract _ 0)))
              (fun m : nat => (Throw (new_Error "ENOENT"), S m))
              1 (new_Error "ENOENT") 2 _ _); reflexivity.
  - refine (proj1 (proj2 (proj2 (proj2 (wrapAsync_same_contract _ 0))))
              (VStr "early") 1 _); reflexivity.
Defined.

(** ** [Ok] and [Err] *)

(** C5, as the code has it.  For every payload [x] other than the module's
    [EMPTY] symbol (so also for [undefined] and [null]): [Ok x] is a success,
    is not an error, and its [ok] accessor returns [x]; [Err x] is an error,
    is not a success, and its [err] accessor returns [x]. *)
Theorem Ok_Err_inspect (x : JsVal) :
  x <> EMPTY ->
  ((r <- Result.Ok x ;; Result.isOk r) = Return true /\
   (r <- Result.Ok x ;; Result.isErr r) = Return false /\
   (r <- Result.Ok x ;; Result.ok r) = Return x) /\
  ((r <- Result.Err x ;; Result.isErr r) = Return true /\
   (r <- Result.Err x ;; Result.isOk r) = Return false /\
   (r <- Result.Err x ;; Result.err r) = Return x).
Proof.
  intros H. apply is_EMPTY_false in H.
  unfold Result.Ok, Result.Err, Result.New, Result.isOk, Result.isErr,
    Result.ok, Result.err; simpl.
  rewrite H. repeat split.
Qed.

(** [undefined] and [null] as payloads. *)
Lemma Ok_Err_inspect_witness :
  (r <- Result.Ok VUndefined ;; Result.isOk r) = Return true /\
  (r <- Result.Ok VNull ;; Result.ok r) = Return VNull /\
  (r <- Result.Err VUndefined ;; Result.isErr r) = Return true.
Proof.
  split; [ | split].
  - apply (Ok_Err_inspect VUndefined). discriminate.
  - apply (Ok_Err_inspect VNull). discriminate.
  - apply (Ok_Err_inspect VUndefined). discriminate.
Defined.

(** C5 fails at the sentinel itself, which the [ok] accessor of an error
    hands to the caller: [Ok(Err(0).ok)] is not a success. *)
Lemma Ok_of_leaked_sentinel_not_ok :
  (e <- Result.Err (VNum 0) ;; Result.ok e) = Return EMPTY /\
  (r <- Result.Ok EMPTY ;; Result.isOk r) = Return false /\
  ~ (forall v, (r <- Result.Ok v ;; Result.isOk r) = Return true).
Proof.
  split; [reflexivity | split; [reflexivity | ]].
  intros H. specialize (H EMPTY). discriminate H.
Qed.

(** ** Complementarity of [isOk] and [isErr] *)

(** C6, as the code has it.  For every [Result] made by [Ok], [Err], [wrap]
    or [wrapAsync] whose payload is not the [EMPTY] symbol, exactly one slot
    holds [EMPTY], and [isOk()] is the negation of [isErr()]. *)
Theorem isOk_isErr_complementary {World : Type} (p : Path World)
  (w w' : World) (r : Result.Result) :
  Result.construct p w = (Return r, w') ->
  (forall x, fst (payload p w) = Return x -> x <> EMPTY) ->
  (forall x, fst (payload p w) = Throw x -> x <> EMPTY) ->
  is_EMPTY (Result.hash_value r) = negb (is_EMPTY (Result.hash_error r)) /\
  exists b, Result.isOk r = Return b /\ Result.isErr r = Return (negb b).
Proof.
  intros Hc Hv He.
  destruct (constructed_shape p w w' r Hc) as [[v [Hp ->]] | [e [Hp ->]]];
    rewrite Hp in Hv, He; simpl in Hv, He; unfold Result.isOk, Result.isErr;
    simpl.
  - rewrite (is_EMPTY_false v (Hv v eq_refl)). split; [reflexivity | ].
    exists true. split; reflexivity.
  - rewrite (is_EMPTY_false e (He e eq_refl)). split; [reflexivity | ].
    exists false. split; reflexivity.
Qed.

Lemma isOk_isErr_complementary_witness :
  exists b,
    Result.isOk (Result.mk EMPTY (VStr "bad")) = Return b /\
    Result.isErr (Result.mk EMPTY (VStr "bad")) = Return (negb b).
Proof.
  refine (proj2 (isOk_isErr_complementary
                   (ByWrap (fun u : unit => (Throw (VStr "bad"), u)))
                   tt tt (Result.mk EMPTY (VStr "bad")) _ _ _)).
  - reflexivity.
  - simpl. intros x H. discriminate H.
  - simpl. intros x H. inversion H. discriminate.
Defined.

(** C6 fails at the leaked sentinel: [Ok(Err(0).ok)] is neither a success
    nor an error, both slots hold [EMPTY]. *)
Lemma leaked_sentinel_neither_ok_nor_err :
  (e <- Result.Err (VNum 0) ;; Result.ok e) = Return EMPTY /\
  (r <- Result.Ok EMPTY ;; Result.isOk r) = Return false /\
  (r <- Result.Ok EMPTY ;; Result.isErr r) = Return false /\
  ~ (forall v r, Result.Ok v = Return r ->
       exists b, Result.isOk r = Return b /\
                 Result.isErr r = Return (negb b)).
Proof.
  repeat (split; [reflexivity | ]).
  intros H. destruct (H EMPTY _ eq_refl) as [b [H1 H2]].
  destruct b; [discriminate H1 | discriminate H2].
Qed.

(** ** [unwrapOr] *)

(** C7, as the code has it.  For every [Result], whatever its two slots
    hold, and every default [other]: [unwrapOr(other)] returns a value and
    never throws; it returns [other] when [isErr()] is true, and the held
    value, the one [ok] returns, when [isErr()] is false.  So for a [Result]
    made by [Ok], [Err], [wrap] or [wrapAsync] it returns the success payload
    on every success path, and [other] on every error path whose error is
    not the [EMPTY] symbol. *)
Theorem unwrapOr_by_slots {World : Type} (p : Path World) (w : World)
  (r : Result.Result) (other : JsVal) :
  (exists x, Result.unwrapOr r other = Return x) /\
  (Result.isErr r = Return true -> Result.unwrapOr r other = Return other) /\
  (Result.isErr r = Return false -> Result.unwrapOr r other = Result.ok r) /\
  (forall r' w', Result.construct p w = (Return r', w') ->
     (forall v, fst (payload p w) = Return v ->
        Result.unwrapOr r' other = Return v) /\
     (forall e, fst (payload p w) = Throw e -> e <> EMPTY ->
        Result.unwrapOr r' other = Return other)).
Proof.
  split; [ | split; [ | split]].
  - unfold Result.unwrapOr.
    destruct (negb (is_EMPTY (Result.hash_error r))); eexists; reflexivity.
  - unfold Result.isErr, Result.unwrapOr. intros H. injection H as H.
    rewrite H. reflexivity.
  - unfold Result.isErr, Result.unwrapOr, Result.ok. intros H.
    injection H as H. rewrite H. reflexivity.
  - intros r' w' Hc.
    destruct (constructed_shape p w w' r' Hc) as [[v [Hp ->]] | [e [Hp ->]]];
      rewrite Hp; unfold Result.unwrapOr; simpl; split.
    + intros x Hx. injection Hx as ->. reflexivity.
    + intros x Hx. discriminate Hx.
    + intros x Hx. discriminate Hx.
    + intros x Hx Hne. injection Hx as ->.
      rewrite (is_EMPTY_false x Hne). reflexivity.
Qed.

(** The second block of the test in [src/unnamed/part_001]: a failed read,
    then [unwrapOr("new value")]. *)
Lemma unwrapOr_by_slots_witness :
  Result.unwrapOr (Result.mk EMPTY (new_Error "ENOENT")) (VStr "new value") =
  Return (VStr "new value").
Proof.
  refine (proj2 (proj2 (proj2 (proj2 (unwrapOr_by_slots
            (ByWrap (fun u : unit => (Throw (new_Error "ENOENT"), u)))
            tt (Result.mk EMPTY (new_Error "ENOENT")) (VStr "new value"))))
            (Result.mk EMPTY (new_Error "ENOENT")) tt _)
            (new_Error "ENOENT") _ _).
  - reflexivity.
  - reflexivity.
  - discriminate.
Defined.

(** C7 fails at a [Result] whose two slots are both filled, as [new
    Result({ value: 1, error: 2 })] makes it: it is a success, [isOk()] is
    true and [ok] returns 1, yet [unwrapOr("d")] returns "d".  It also fails
    at [Err] of the leaked sentinel, where [unwrapOr("d")] returns the
    sentinel and not "d". *)
Lemma unwrapOr_when_both_slots_hold :
  (r <- Result.New (VNum 1) (VNum 2) ;; Result.isOk r) = Return true /\
  (r <- Result.New (VNum 1) (VNum 2) ;; Result.ok r) = Return (VNum 1) /\
  (r <- Result.New (VNum 1) (VNum 2) ;; Result.unwrapOr r (VStr "d")) =
  Return (VStr "d") /\
  (e <- Result.Err (VNum 0) ;; x <- Result.ok e ;;
   r <- Result.Err x ;; Result.unwrapOr r (VStr "d")) = Return EMPTY /\
  ~ (forall r d, Result.isOk r = Return true ->
       Result.unwrapOr r d = Result.ok r).
Proof.
  repeat (split; [reflexivity | ]).
  intros H.
  specialize (H (Result.mk (VNum 1) (VNum 2)) (VStr "d") eq_refl).
  discriminate H.
Qed.

(** ** [Result.expect] *)

(** A failure of the conversion to a string, inside the template literal,
    is the failure [expect] ends with. *)
Lemma expect_conversion_failure (e : JsVal) (msg : string) (f : JsVal) :
  e <> EMPTY -> ToString e = Throw f ->
  (r <- Result.Err e ;; Result.expect r msg) = Throw f.
Proof.
  intros He Hs. unfold Result.Err, Result.New, Result.expect; simpl.
  rewrite (is_EMPTY_false e He); simpl. rewrite Hs. reflexivity.
Qed.

(** C3, as the code has it.  For every [Result] made by [Ok], [Err], [wrap]
    or [wrapAsync] and every [msg]: on a success [expect(msg)] returns the
    held success value; on an error whose conversion to a string gives [s]
    it throws an [Error] with the message [msg ++ " - " ++ s]; no other
    operation of [Result] throws, and neither does the construction. *)
Theorem expect_contract {World : Type} (p : Path World) (w : World)
  (msg : string) :
  (forall r w', Result.construct p w = (Return r, w') ->
     (Result.isOk r = Return true -> Result.expect r msg = Result.ok r) /\
     (Result.isErr r = Return true ->
      forall s, (e <- Result.err r ;; ToString e) = Return s ->
        Result.expect r msg = Throw (new_Error (msg ++ " - " ++ s))) /\
     (forall other,
        ~ raises (Result.ok r) /\ ~ raises (Result.err r) /\
        ~ raises (Result.isOk r) /\ ~ raises (Result.isErr r) /\
        ~ raises (Result.unwrapOr r other))) /\
  ~ raises (fst (Result.construct p w)).
Proof.
  split.
  - intros r w' Hc.
    split; [ | split].
    + destruct (constructed_shape p w w' r Hc) as [[v [_ ->]] | [e [_ ->]]];
        unfold Result.isOk, Result.expect, Result.ok; simpl.
      * reflexivity.
      * intros H; discriminate H.
    + destruct (constructed_shape p w w' r Hc) as [[v [_ ->]] | [e [_ ->]]];
        unfold Result.isErr, Result.expect, Result.err; simpl.
      * intros H; discriminate H.
      * intros H s Hs. injection H as H. rewrite H; simpl.
        rewrite Hs. reflexivity.
    + intros other. unfold Result.ok, Result.err, Result.isOk, Result.isErr,
        Result.unwrapOr.
      repeat split; try no_throw.
      destruct (negb (is_EMPTY (Result.hash_error r)));
        no_throw.
  - rewrite construct_payload.
    destruct (payload p w) as [[v | e | ] w1]; simpl;
      no_throw.
Qed.

(** The scenario [Err("x").expect("failed")]. *)
Lemma expect_contract_witness :
  Result.expect (Result.mk EMPTY (VStr "x")) "failed" =
  Throw (new_Error "failed - x").
Proof.
  refine (proj1 (proj2 (proj1 (expect_contract (ByErr (VStr "x")) tt "failed")
                          (Result.mk EMPTY (VStr "x")) tt _)) _ "x" _);
    reflexivity.
Defined.

(** C3 fails at an error that is a symbol: the template literal throws a
    [TypeError], and the message of that failure is not [msg] followed by
    anything. *)
Lemma expect_on_symbol_error :
  (r <- Result.Err (VSymbol (SymUser 0)) ;; Result.isErr r) = Return true /\
  (r <- Result.Err (VSymbol (SymUser 0)) ;; Result.expect r "failed") =
  Throw (new_TypeError "Cannot convert a Symbol value to a string") /\
  forall s name,
    (r <- Result.Err (VSymbol (SymUser 0)) ;; Result.expect r "failed") <>
    Throw (VError name ("failed - " ++ s)).
Proof.
  split; [reflexivity | split; [reflexivity | ]].
  intros s name H. simpl in H. discriminate H.
Qed.

(** ** [Option]: presence tests *)

(** What [isSome] and [isNone] do test: whether the stored value is
    [undefined]. *)
Lemma Option_wrap_inspect (v : JsVal) :
  (o <- Option.wrap VUndefined ;; Option.isNone o) = Return true /\
  (v <> VUndefined -> (o <- Option.wrap v ;; Option.isSome o) = Return true).
Proof.
  split; [reflexivity | ].
  intros H. unfold Option.wrap, Option.New, Option.isSome; simpl.
  rewrite (is_undefined_false v H). reflexivity.
Qed.

(** C2, at [null].  The module documentation of [src/option.ts] announces
    [Option.wrap(null).isNone()] as [true], and [some] and [expect] treat
    [null] as absent; [isNone] answers [false], and [isSome] answers
    [true]. *)
Theorem Option_wrap_null_isNone :
  (o <- Option.wrap VNull ;; Option.isNone o) = Return false /\
  (o <- Option.wrap VNull ;; Option.isSome o) = Return true /\
  (o <- Option.wrap VNull ;; Option.expect o "unwrap on none") =
  Throw (new_Error "unwrap on none - Option is None").
Proof. repeat split. Qed.

(** ** [Option.expect] *)

(** C9. For every stored value [v] and every [msg]: [expect(msg)] returns
    [v] when [v] is neither [undefined] nor [null], and otherwise throws an
    [Error] whose message is [msg ++ " - Option is None"]. *)
Theorem Option_expect_contract (v : JsVal) (msg : string) :
  (v <> VUndefined -> v <> VNull ->
   (o <- Option.wrap v ;; Option.expect o msg) = Return v) /\
  (v = VUndefined \/ v = VNull ->
   (o <- Option.wrap v ;; Option.expect o msg) =
   Throw (new_Error (msg ++ " - Option is None"))).
Proof.
  unfold Option.wrap, Option.New, Option.expect; simpl. split.
  - intros Hu Hn.
    rewrite (is_undefined_false v Hu), (is_null_false v Hn). reflexivity.
  - intros [-> | ->]; reflexivity.
Qed.

(** [Option.wrap(5)] and the test of [src/unnamed/part_001]. *)
Lemma Option_expect_contract_witness :
  (o <- Option.wrap (VNum 5) ;; Option.expect o "five") = Return (VNum 5) /\
  (o <- Option.wrap VUndefined ;; Option.expect o "unwrap on none") =
  Throw (new_Error "unwrap on none - Option is None").
Proof.
  split.
  - apply (Option_expect_contract (VNum 5) "five"); discriminate.
  - apply (Option_expect_contract VUndefined "unwrap on none").
    left. reflexivity.
Defined.

(** ** The unchecked accessors *)




(** ** The two [Result] classes compared *)

Lemma construct_payload_undef {World : Type} (p : Path World) (w : World) :
  ResultUndef.construct p w =
  match payload p w with
  | (Return v, w') => (Return (ResultUndef.mk v VUndefined), w')
  | (Throw e, w') => (Return (ResultUndef.mk VUndefined e), w')
  | (Diverge, w') => (Diverge, w')
  end.
Proof.
  destruct p as [value | error | callback | callback]; simpl;
    try reflexivity.
  - unfold ResultUndef.wrap, run_try, run_bind, lift.
    destruct (callback w) as [[v | f | ] w1]; reflexivity.
  - unfold ResultUndef.wrapAsync, settled, run_try, run_bind, await, lift.
    destruct (callback w) as [[promise | f | ] w1]; try reflexivity.
    destruct (promise w1) as [[v | f | ] w2]; reflexivity.
Qed.

(** C10, as the code has it.  The two classes give the same observation for
    [isOk], [isErr] and [expect], for [ok] on a success and for [err] on an
    error, on every path whose success payload is not the [EMPTY] symbol and
    whose error payload is neither the [EMPTY] symbol nor [undefined]. *)
Theorem equivalent_off_sentinels {World : Type} (p : Path World) (op : Op)
  (w : World) :
  sentinel_free (fst (payload p w)) ->
  on_own_branch (fst (payload p w)) op ->
  Result.observation p op w = ResultUndef.observation p op w.
Proof.
  unfold Result.observation, ResultUndef.observation, run_bind.
  rewrite construct_payload, construct_payload_undef.
  destruct (payload p w) as [[v | e | ] w1]; simpl; [ | | reflexivity].
  - intros Hv Hb. unfold lift.
    destruct op; simpl in *; try contradiction;
      unfold Result.isOk, ResultUndef.isOk, Result.expect, ResultUndef.expect;
      simpl; rewrite ?(is_EMPTY_false v Hv); reflexivity.
  - intros [He Hu] Hb. unfold lift.
    destruct op; simpl in *; try contradiction;
      unfold Result.isOk, ResultUndef.isOk, Result.isErr, ResultUndef.isErr,
        Result.expect, ResultUndef.expect;
      simpl; rewrite ?(is_EMPTY_false e He), ?(is_undefined_false e Hu);
      reflexivity.
Qed.

Lemma equivalent_off_sentinels_witness :
  Result.observation (ByWrap (fun u : unit => (Throw (VStr "x"), u)))
    (OpExpect "failed") tt =
  ResultUndef.observation (ByWrap (fun u : unit => (Throw (VStr "x"), u)))
    (OpExpect "failed") tt.
Proof.
  apply (equivalent_off_sentinels
           (ByWrap (fun u : unit => (Throw (VStr "x"), u)))
           (OpExpect "failed") tt); simpl.
  - split; discriminate.
  - exact I.
Defined.

(** C10 fails at a callback that throws [undefined]: the symbol-sentinel
    class reports an error, the [undefined]-sentinel class a success. *)
Lemma thrown_undefined_tells_apart :
  Result.observation (ByWrap (fun u : unit => (Throw VUndefined, u)))
    OpIsErr tt = (Return (ObsBool true), tt) /\
  ResultUndef.observation (ByWrap (fun u : unit => (Throw VUndefined, u)))
    OpIsErr tt = (Return (ObsBool false), tt) /\
  ~ observationally_equivalent.
Proof.
  split; [reflexivity | split; [reflexivity | ]].
  intros H.
  specialize (H unit (ByWrap (fun u : unit => (Throw VUndefined, u)))
                OpIsErr tt).
  discriminate H.
Qed.

(** * Further properties of [src/result.ts] *)

(** ** The callback is run once, and nothing else is *)

(** X1. [Result.wrap] leaves the world as the single run of the callback
    left it; it does not complete exactly when the callback does not, and
    otherwise it returns a [Result]. *)
Theorem wrap_runs_callback_once {World : Type} (callback : Run World JsVal)
  (w : World) :
  snd (Result.wrap callback w) = snd (callback w) /\
  (fst (Result.wrap callback w) = Diverge <-> fst (callback w) = Diverge) /\
  (fst (callback w) <> Diverge ->
   exists r, fst (Result.wrap callback w) = Return r).
Proof.
  unfold Result.wrap, run_try, run_bind, lift.
  destruct (callback w) as [[v | f | ] w1]; simpl.
  - split; [reflexivity | split; [split; intros H; discriminate H | ]].
    intros _. eexists. reflexivity.
  - split; [reflexivity | split; [split; intros H; discriminate H | ]].
    intros _. eexists. reflexivity.
  - split; [reflexivity | split; [split; reflexivity | ]].
    intros H. contradiction H. reflexivity.
Qed.

Lemma wrap_runs_callback_once_witness :
  exists r,
    fst (Result.wrap (fun n : nat => (Throw VUndefined, S n)) 0) = Return r.
Proof.
  refine (proj2 (proj2 (wrap_runs_callback_once
                          (fun n : nat => (Throw VUndefined, S n)) 0)) _).
  simpl. discriminate.
Defined.

(** X2. The promise of [Result.wrapAsync] stays pending exactly when the
    callback does not return or its promise never settles; the world is the
    one the settlement left, and when the callback throws before it returns a
    promise nothing is awaited. *)
Theorem wrapAsync_settles_with_callback {World : Type}
  (callback : Run World (Promise World JsVal)) (w : World) :
  snd (Result.wrapAsync callback w) = snd (settled callback w) /\
  (fst (Result.wrapAsync callback w) = Diverge <->
   fst (settled callback w) = Diverge) /\
  (forall f w1, callback w = (Throw f, w1) ->
     snd (Result.wrapAsync callback w) = w1).
Proof.
  unfold Result.wrapAsync, settled, run_try, run_bind, await, lift.
  destruct (callback w) as [[promise | f | ] w1]; simpl.
  - destruct (promise w1) as [[v | f | ] w2]; simpl;
      (split; [reflexivity | split; [split; intros H;
         try discriminate H; reflexivity | intros g w3 H; discriminate H]]).
  - split; [reflexivity | split; [split; intros H; discriminate H | ]].
    intros g w3 H. inversion H. reflexivity.
  - split; [reflexivity | split; [split; reflexivity | ]].
    intros g w3 H. discriminate H.
Qed.

Lemma wrapAsync_settles_with_callback_witness :
  snd (Result.wrapAsync
         (fun n : nat => (@Throw (Promise nat JsVal) _ (VStr "early"), S n))
         0) = 1.
Proof.
  refine (proj2 (proj2 (wrapAsync_settles_with_callback
            (fun n : nat => (@Throw (Promise nat JsVal) _ (VStr "early"), S n))
            0)) (VStr "early") 1 _).
  reflexivity.
Defined.

(** ** [expect] and [unwrapOr] on any state of the two slots *)

(** X3. Whatever the two slots hold, [unwrapOr(other)] is [expect(msg)] with
    every outcome but a normal return replaced by [other]. *)
Theorem unwrapOr_is_expect_with_default (r : Result.Result) (msg : string)
  (other : JsVal) :
  Result.unwrapOr r other =
  match Result.expect r msg with
  | Return v => Return v
  | _ => Return other
  end.
Proof.
  unfold Result.unwrapOr, Result.expect.
  destruct (negb (is_EMPTY (Result.hash_error r))); [ | reflexivity].
  destruct (ToString (Result.hash_error r)); reflexivity.
Qed.

(** X4. Whatever the two slots hold, [expect(msg)] returns exactly when
    [isErr()] is false, and what it returns is what the [ok] accessor
    returns. *)
Theorem expect_returns_iff_not_isErr (r : Result.Result) (msg : string) :
  ((exists v, Result.expect r msg = Return v) <->
   Result.isErr r = Return false) /\
  (forall v, Result.expect r msg = Return v -> Result.ok r = Return v).
Proof.
  unfold Result.expect, Result.isErr, Result.ok.
  destruct (negb (is_EMPTY (Result.hash_error r))).
  - split.
    + split.
      * intros [v H]. destruct (ToString (Result.hash_error r));
          discriminate H.
      * intros H. discriminate H.
    + intros v H. destruct (ToString (Result.hash_error r)); discriminate H.
  - split.
    + split; [reflexivity | ]. intros _. eexists. reflexivity.
    + intros v H. exact H.
Qed.

Lemma expect_returns_iff_not_isErr_witness :
  Result.ok (Result.mk (VNum 42) EMPTY) = Return (VNum 42).
Proof.
  refine (proj2 (expect_returns_iff_not_isErr
                   (Result.mk (VNum 42) EMPTY) "answer") (VNum 42) _).
  reflexivity.
Defined.

(** ** The constructor *)

(** X5. The constructor stores what it is given and checks nothing: with a
    value and an error that are both not [EMPTY] the [Result] is a success
    and an error at once, and the error slot wins in [unwrapOr] and
    [expect]. *)
Theorem constructor_keeps_both_slots (v e other : JsVal) (msg : string) :
  v <> EMPTY -> e <> EMPTY ->
  (r <- Result.New v e ;; Result.isOk r) = Return true /\
  (r <- Result.New v e ;; Result.isErr r) = Return true /\
  (r <- Result.New v e ;; Result.ok r) = Return v /\
  (r <- Result.New v e ;; Result.err r) = Return e /\
  (r <- Result.New v e ;; Result.unwrapOr r other) = Return other /\
  ~ (exists x, (r <- Result.New v e ;; Result.expect r msg) = Return x).
Proof.
  intros Hv He.
  unfold Result.New, Result.isOk, Result.isErr, Result.ok, Result.err,
    Result.unwrapOr, Result.expect; simpl.
  rewrite (is_EMPTY_false v Hv), (is_EMPTY_false e He); simpl.
  repeat (split; [reflexivity | ]).
  intros [x H]. destruct (ToString e); discriminate H.
Qed.

Lemma constructor_keeps_both_slots_witness :
  (r <- Result.New (VNum 1) (VNum 2) ;; Result.isOk r) = Return true /\
  (r <- Result.New (VNum 1) (VNum 2) ;; Result.isErr r) = Return true.
Proof.
  split.
  - apply (constructor_keeps_both_slots (VNum 1) (VNum 2) VNull "m");
      discriminate.
  - apply (constructor_keeps_both_slots (VNum 1) (VNum 2) VNull "m");
      discriminate.
Defined.

(** ** What [isOk] and [isErr] say about the path *)

(** X6. For a [Result] made by [Ok], [Err], [wrap] or [wrapAsync]: [isOk()]
    is true exactly when the payload was returned and is not [EMPTY], and
    [isErr()] is true exactly when the payload was thrown and is not
    [EMPTY]. *)
Theorem isOk_isErr_by_path {World : Type} (p : Path World) (w w' : World)
  (r : Result.Result) :
  Result.construct p w = (Return r, w') ->
  (Result.isOk r = Return true <->
   exists v, fst (payload p w) = Return v /\ v <> EMPTY) /\
  (Result.isErr r = Return true <->
   exists e, fst (payload p w) = Throw e /\ e <> EMPTY).
Proof.
  intros Hc.
  destruct (constructed_shape p w w' r Hc) as [[v [Hp ->]] | [e [Hp ->]]];
    rewrite Hp; unfold Result.isOk, Result.isErr; simpl.
  - split; split.
    + intros H. exists v. split; [reflexivity | ].
      intros ->. discriminate H.
    + intros [x [Hx Hne]]. inversion Hx; subst.
      rewrite (is_EMPTY_false x Hne). reflexivity.
    + intros H. discriminate H.
    + intros [x [Hx _]]. discriminate Hx.
  - split; split.
    + intros H. discriminate H.
    + intros [x [Hx _]]. discriminate Hx.
    + intros H. exists e. split; [reflexivity | ].
      intros ->. discriminate H.
    + intros [x [Hx Hne]]. inversion Hx; subst.
      rewrite (is_EMPTY_false x Hne). reflexivity.
Qed.

Lemma isOk_isErr_by_path_witness :
  Result.isErr (Result.mk EMPTY VUndefined) = Return true.
Proof.
  refine (proj2 (proj2 (isOk_isErr_by_path (ByErr VUndefined) tt tt
                          (Result.mk EMPTY VUndefined) _)) _).
  - reflexivity.
  - exists VUndefined. split; [reflexivity | discriminate].
Defined.

(** ** [wrap], then [expect] *)

(** X7. [Result.wrap] hands [expect] a [Result], in the world the callback
    left, on which [expect(msg)] returns what the callback returned; when
    the callback threw [f], not [EMPTY], [expect(msg)] does not rethrow [f]:
    it throws a new [Error] with the message [msg ++ " - " ++ s] when the
    conversion of [f] to a string gives [s], and the failure of that
    conversion when it fails.  (What the conversion does to the world is not
    stated.) *)
Theorem wrap_then_expect {World : Type} (callback : Run World JsVal)
  (w : World) (msg : string) :
  (forall v w', callback w = (Return v, w') ->
     exists r, Result.wrap callback w = (Return r, w') /\
               Result.expect r msg = Return v) /\
  (forall f w' s, callback w = (Throw f, w') -> f <> EMPTY ->
     ToString f = Return s ->
     exists r, Result.wrap callback w = (Return r, w') /\
               Result.expect r msg = Throw (new_Error (msg ++ " - " ++ s))) /\
  (forall f w' g, callback w = (Throw f, w') -> f <> EMPTY ->
     ToString f = Throw g ->
     exists r, Result.wrap callback w = (Return r, w') /\
               Result.expect r msg = Throw g).
Proof.
  unfold Result.wrap, run_try, run_bind, lift. split; [ | split].
  - intros v w' H. rewrite H. eexists. split; reflexivity.
  - intros f w' s H Hf Hs. rewrite H. eexists. split; [reflexivity | ].
    unfold Result.expect; simpl.
    rewrite (is_EMPTY_false f Hf); simpl. rewrite Hs. reflexivity.
  - intros f w' g H Hf Hg. rewrite H. eexists. split; [reflexivity | ].
    unfold Result.expect; simpl.
    rewrite (is_EMPTY_false f Hf); simpl. rewrite Hg. reflexivity.
Qed.

Lemma wrap_then_expect_witness :
  exists r,
    Result.wrap (fun n : nat => (Throw (new_Error "boom"), S n)) 0 =
    (Return r, 1) /\
    Result.expect r "failed" = Throw (new_Error "failed - Error: boom").
Proof.
  refine (proj1 (proj2 (wrap_then_expect
                   (fun n : nat => (Throw (new_Error "boom"), S n)) 0
                   "failed"))
            (new_Error "boom") 1 "Error: boom" _ _ _).
  - reflexivity.
  - discriminate.
  - reflexivity.
Defined.

(** * Further properties of [src/unnamed/part_000] *)

Lemma constructed_shape_undef {World : Type} (p : Path World) (w w' : World)
  (r : ResultUndef.Result) :
  ResultUndef.construct p w = (Return r, w') ->
  (exists v, payload p w = (Return v, w') /\
             r = ResultUndef.mk v VUndefined) \/
  (exists e, payload p w = (Throw e, w') /\
             r = ResultUndef.mk VUndefined e).
Proof.
  rewrite construct_payload_undef.
  destruct (payload p w) as [[v | e | ] w1]; intros H; inversion H; subst.
  - left. exists v. split; reflexivity.
  - right. exists e. split; reflexivity.
Qed.

(** X8. In the [undefined]-sentinel class [isOk()] is the negation of
    [isErr()] whatever was stored.  For a [Result] made by [Ok], [Err],
    [wrap] or [wrapAsync], [isErr()] is true exactly when the payload was
    thrown and is not [undefined]: a thrown [undefined] counts as a
    success. *)
Theorem undef_isErr_by_path {World : Type} (p : Path World) (w w' : World)
  (r : ResultUndef.Result) :
  ResultUndef.construct p w = (Return r, w') ->
  (exists b, ResultUndef.isOk r = Return b /\
             ResultUndef.isErr r = Return (negb b)) /\
  (ResultUndef.isErr r = Return true <->
   exists e, fst (payload p w) = Throw e /\ e <> VUndefined) /\
  (ResultUndef.isOk r = Return true <->
   (exists v, fst (payload p w) = Return v) \/
   fst (payload p w) = Throw VUndefined).
Proof.
  intros Hc. split.
  { unfold ResultUndef.isOk, ResultUndef.isErr.
    exists (is_undefined (ResultUndef.hash_error r)). split; reflexivity. }
  destruct (constructed_shape_undef p w w' r Hc)
    as [[v [Hp ->]] | [e [Hp ->]]];
    rewrite Hp; unfold ResultUndef.isOk, ResultUndef.isErr; simpl.
  - split; split.
    + intros H. discriminate H.
    + intros [x [Hx _]]. discriminate Hx.
    + intros _. left. exists v. reflexivity.
    + reflexivity.
  - split; split.
    + intros H. exists e. split; [reflexivity | ].
      intros ->. discriminate H.
    + intros [x [Hx Hne]]. inversion Hx; subst.
      rewrite (is_undefined_false x Hne). reflexivity.
    + intros H. right. injection H as H. apply is_undefined_spec in H.
      rewrite H. reflexivity.
    + intros [[x Hx] | H]; [discriminate Hx | ].
      inversion H. reflexivity.
Qed.

Lemma undef_isErr_by_path_witness :
  ResultUndef.isOk (ResultUndef.mk VUndefined VUndefined) = Return true.
Proof.
  refine (proj2 (proj2 (proj2 (undef_isErr_by_path
            (ByWrap (fun u : unit => (Throw VUndefined, u))) tt tt
            (ResultUndef.mk VUndefined VUndefined) _))) _).
  - reflexivity.
  - right. reflexivity.
Defined.

(** X9. In the [undefined]-sentinel class [expect(msg)] returns exactly when
    [isOk()] is true, and then it returns what [ok] returns.  A callback
    that throws [undefined] is therefore swallowed: wrapping it and calling
    [expect(msg)] returns [undefined] and throws nothing. *)
Theorem undef_expect_returns_iff_isOk {World : Type} (r : ResultUndef.Result)
  (msg : string) (callback : Run World JsVal) (w : World) :
  ((exists v, ResultUndef.expect r msg = Return v) <->
   ResultUndef.isOk r = Return true) /\
  (forall v, ResultUndef.expect r msg = Return v ->
     ResultUndef.ok r = Return v) /\
  (forall w', callback w = (Throw VUndefined, w') ->
     run_bind (ResultUndef.wrap callback)
       (fun this => lift (ResultUndef.expect this msg)) w =
     (Return VUndefined, w')).
Proof.
  split; [ | split].
  - unfold ResultUndef.expect, ResultUndef.isOk.
    destruct (is_undefined (ResultUndef.hash_error r)); simpl.
    + split; [reflexivity | ]. intros _. eexists. reflexivity.
    + split.
      * intros [v H]. destruct (ToString (ResultUndef.hash_error r));
          discriminate H.
      * intros H. discriminate H.
  - unfold ResultUndef.expect, ResultUndef.ok.
    destruct (is_undefined (ResultUndef.hash_error r)); simpl.
    + intros v H. exact H.
    + intros v H. destruct (ToString (ResultUndef.hash_error r));
        discriminate H.
  - intros w' H.
    unfold ResultUndef.wrap, run_try, run_bind, lift. rewrite H.
    reflexivity.
Qed.

Lemma undef_expect_returns_iff_isOk_witness :
  run_bind (ResultUndef.wrap (fun n : nat => (Throw VUndefined, S n)))
    (fun this => lift (ResultUndef.expect this "failed")) 0 =
  (Return VUndefined, 1).
Proof.
  refine (proj2 (proj2 (undef_expect_returns_iff_isOk
            (ResultUndef.mk VUndefined VUndefined) "failed"
            (fun n : nat => (Throw VUndefined, S n)) 0)) 1 _).
  reflexivity.
Defined.

(** X10. [wrapAsync] of the [undefined]-sentinel class is its [wrap] applied
    to the callback followed to its settlement; its promise is never
    rejected, and neither [wrap] nor [wrapAsync] changes the world beyond
    what the callback and its promise do. *)
Theorem undef_wrapAsync_same_contract {World : Type}
  (callback : Run World (Promise World JsVal)) (sync : Run World JsVal)
  (w : World) :
  ResultUndef.wrapAsync callback w =
  ResultUndef.wrap (settled callback) w /\
  ~ raises (fst (ResultUndef.wrapAsync callback w)) /\
  ~ raises (fst (ResultUndef.wrap sync w)) /\
  snd (ResultUndef.wrapAsync callback w) = snd (settled callback w) /\
  snd (ResultUndef.wrap sync w) = snd (sync w).
Proof.
  unfold ResultUndef.wrapAsync, ResultUndef.wrap, settled, run_try, run_bind,
    await, lift.
  split; [ | split; [ | split; [ | split]]].
  - destruct (callback w) as [[promise | f | ] w1]; reflexivity.
  - destruct (callback w) as [[promise | f | ] w1]; simpl;
      [destruct (promise w1) as [[v | f | ] w2]; simpl | | ]; no_throw.
  - destruct (sync w) as [[v | f | ] w1]; simpl; no_throw.
  - destruct (callback w) as [[promise | f | ] w1]; simpl;
      [destruct (promise w1) as [[v | f | ] w2] | | ]; reflexivity.
  - destruct (sync w) as [[v | f | ] w1]; reflexivity.
Qed.

(** * Further properties of [src/option.ts] and [src/unnamed/part_004] *)

Lemma is_null_spec (x : JsVal) : is_null x = true <-> x = VNull.
Proof.
  split.
  - destruct x; simpl; intros H; try discriminate H; reflexivity.
  - intros ->. reflexivity.
Qed.

(** X11. [isSome()] is the negation of [isNone()], and the presence test
    and the guarded accessor disagree at exactly one stored value: [isSome()]
    is true while [some] throws if and only if the [Option] stores [null]. *)
Theorem isSome_some_disagree_at_null (o : Option.Option) :
  (exists b, Option.isSome o = Return b /\
             Option.isNone o = Return (negb b)) /\
  ((Option.isSome o = Return true /\ raises (Option.some o)) <->
   Option.hash_value o = VNull).
Proof.
  destruct o as [v]. unfold Option.isSome, Option.isNone, Option.some; simpl.
  split.
  - exists (negb (is_undefined v)). split; [reflexivity | ].
    rewrite negb_involutive. reflexivity.
  - split.
    + intros [Hs [f Hf]].
      destruct v; simpl in *; try discriminate Hs; try discriminate Hf.
      reflexivity.
    + intros ->. split; [reflexivity | ].
      exists (new_Error "Option is None"). reflexivity.
Qed.

(** X12. [some] and [expect(msg)] return the same values on the same
    [Option]s and throw on the same [Option]s; they differ only in the
    message of the [Error]. *)
Theorem some_expect_agree (o : Option.Option) (msg : string) :
  (forall v, Option.some o = Return v <-> Option.expect o msg = Return v) /\
  (Option.some o = Throw (new_Error "Option is None") <->
   Option.expect o msg = Throw (new_Error (msg ++ " - Option is None"))) /\
  (raises (Option.some o) <-> raises (Option.expect o msg)).
Proof.
  destruct o as [v]. unfold Option.some, Option.expect; simpl.
  destruct (is_undefined v || is_null v).
  - split; [ | split].
    + intros x. split; intros H; discriminate H.
    + split; reflexivity.
    + split; intros _; eexists; reflexivity.
  - split; [ | split].
    + intros x. split; intros H; exact H.
    + split; intros H; discriminate H.
    + split; no_throw.
Qed.

(** X13. Wrapping a value and reading it back with [some] gives the value
    back exactly when it is neither [undefined] nor [null]; [some] never
    returns anything but the wrapped value, and never [undefined] or
    [null]. *)
Theorem wrap_some_round_trip (v : JsVal) :
  ((o <- Option.wrap v ;; Option.some o) = Return v <->
   v <> VUndefined /\ v <> VNull) /\
  (forall x, (o <- Option.wrap v ;; Option.some o) = Return x ->
     x = v /\ x <> VUndefined /\ x <> VNull).
Proof.
  unfold Option.wrap, Option.New, Option.some; simpl.
  destruct (is_undefined v) eqn:Hu; [ | destruct (is_null v) eqn:Hn]; simpl.
  - apply is_undefined_spec in Hu. split.
    + split; [intros H; discriminate H | ].
      intros [H _]. contradiction.
    + intros x H. discriminate H.
  - apply is_null_spec in Hn. split.
    + split; [intros H; discriminate H | ].
      intros [_ H]. contradiction.
    + intros x H. discriminate H.
  - split.
    + split; [ | reflexivity].
      intros _. split; intros ->; [discriminate Hu | discriminate Hn].
    + intros x H. inversion H; subst.
      split; [reflexivity | ].
      split; intros ->; [discriminate Hu | discriminate Hn].
Qed.

Lemma wrap_some_round_trip_witness :
  (o <- Option.wrap (VStr "") ;; Option.some o) = Return (VStr "").
Proof.
  apply (wrap_some_round_trip (VStr "")). split; discriminate.
Defined.

(** X14. The two [Option] classes agree on [isSome], [isNone] and [expect]
    for every wrapped value, and on [some] exactly when the value is neither
    [undefined] nor [null]; there the guarded [some] throws and the unguarded
    one returns the stored value. *)
Theorem Option_classes_compared (v : JsVal) (msg : string) :
  (o <- Option.wrap v ;; Option.isSome o) =
  (o <- OptionUnchecked.wrap v ;; OptionUnchecked.isSome o) /\
  (o <- Option.wrap v ;; Option.isNone o) =
  (o <- OptionUnchecked.wrap v ;; OptionUnchecked.isNone o) /\
  (o <- Option.wrap v ;; Option.expect o msg) =
  (o <- OptionUnchecked.wrap v ;; OptionUnchecked.expect o msg) /\
  ((o <- Option.wrap v ;; Option.some o) =
   (o <- OptionUnchecked.wrap v ;; OptionUnchecked.some o) <->
   v <> VUndefined /\ v <> VNull) /\
  (o <- OptionUnchecked.wrap v ;; OptionUnchecked.some o) = Return v.
Proof.
  repeat (split; [reflexivity | ]).
  split; [ | reflexivity].
  unfold Option.wrap, Option.New, Option.some, OptionUnchecked.wrap,
    OptionUnchecked.New, OptionUnchecked.some; simpl.
  destruct (is_undefined v) eqn:Hu; [ | destruct (is_null v) eqn:Hn]; simpl.
  - apply is_undefined_spec in Hu.
    split; [intros H; discriminate H | intros [H _]; contradiction].
  - apply is_null_spec in Hn.
    split; [intros H; discriminate H | intros [_ H]; contradiction].
  - split; [ | reflexivity].
    intros _. split; intros ->; [discriminate Hu | discriminate Hn].
Qed.
